(** * The [useWallet] hook: wallet connection state and its operations

    A shallow embedding of the React hook [useWallet] (the connection
    controller) and of the five operations it hands to the UI:
    [refresh], [connect], [disconnect], [switchNetwork] and [signTx].

    - The hook's state ([WalletState]) is a record; every [setState] call of
      the source is a functional update of that record.
    - The wallet service the hook imports ([../services/walletService]) is an
      interface: a class of functions over an abstract wallet [World], each of
      which either returns or throws.
    - An [async] function is a computation in a small monad that threads the
      wallet world and the hook state, propagates thrown values, and records
      in order every wallet-service call and every state update it makes. *)

From Stdlib Require Import String List Bool.
Import ListNotations.
Open Scope string_scope.

(** ** JavaScript values used by the hook *)

(** A thrown value: an [Error] object with its [message], or anything else. *)
Inductive thrown : Type :=
| JsError (message : string)
| JsOther.

(** The outcome of awaiting a promise. *)
Inductive outcome (A : Type) : Type :=
| Returned (a : A)
| Threw (e : thrown).
Arguments Returned {A} a.
Arguments Threw {A} e.

(** [error instanceof Error ? error.message : fallback] *)
Definition message_or (error : thrown) (fallback : string) : string :=
  match error with
  | JsError message => message
  | JsOther => fallback
  end.

(** Truthiness of an optional string: absent and empty strings are falsy. *)
Definition truthy (v : option string) : bool :=
  match v with
  | Some s => negb (s =? "")
  | None => false
  end.

(** [v || fallback] on an optional string. *)
Definition or_else (v : option string) (fallback : string) : string :=
  match v with
  | Some s => if truthy v then s else fallback
  | None => fallback
  end.

(** [a === b] on values of type [string | null]. *)
Definition strict_eq (a b : option string) : bool :=
  match a, b with
  | Some x, Some y => x =? y
  | None, None => true
  | _, _ => false
  end.

(** ** The hook state *)

Record WalletState : Type := mkWalletState {
  address : option string;
  isConnected : bool;
  isConnecting : bool;
  isDisconnecting : bool;
  error : option string;
  isWalletAvailable : bool;
  network : option string;
  isWrongNetwork : bool
}.

(** The argument of [useState]. *)
Definition initialState : WalletState :=
  {| address := None;
     isConnected := false;
     isConnecting := false;
     isDisconnecting := false;
     error := None;
     isWalletAvailable := false;
     network := None;
     isWrongNetwork := false |}.

(** Object spread with one field replaced: [{ ...prev, field: v }]. A
    spread with several fields replaced is a chain of these. *)
Definition set_address (v : option string) (prev : WalletState) : WalletState :=
  {| address := v;
     isConnected := isConnected prev;
     isConnecting := isConnecting prev;
     isDisconnecting := isDisconnecting prev;
     error := error prev;
     isWalletAvailable := isWalletAvailable prev;
     network := network prev;
     isWrongNetwork := isWrongNetwork prev |}.

Definition set_isConnected (v : bool) (prev : WalletState) : WalletState :=
  {| address := address prev;
     isConnected := v;
     isConnecting := isConnecting prev;
     isDisconnecting := isDisconnecting prev;
     error := error prev;
     isWalletAvailable := isWalletAvailable prev;
     network := network prev;
     isWrongNetwork := isWrongNetwork prev |}.

Definition set_isConnecting (v : bool) (prev : WalletState) : WalletState :=
  {| address := address prev;
     isConnected := isConnected prev;
     isConnecting := v;
     isDisconnecting := isDisconnecting prev;
     error := error prev;
     isWalletAvailable := isWalletAvailable prev;
     network := network prev;
     isWrongNetwork := isWrongNetwork prev |}.

Definition set_isDisconnecting (v : bool) (prev : WalletState) : WalletState :=
  {| address := address prev;
     isConnected := isConnected prev;
     isConnecting := isConnecting prev;
     isDisconnecting := v;
     error := error prev;
     isWalletAvailable := isWalletAvailable prev;
     network := network prev;
     isWrongNetwork := isWrongNetwork prev |}.

Definition set_error (v : option string) (prev : WalletState) : WalletState :=
  {| address := address prev;
     isConnected := isConnected prev;
     isConnecting := isConnecting prev;
     isDisconnecting := isDisconnecting prev;
     error := v;
     isWalletAvailable := isWalletAvailable prev;
     network := network prev;
     isWrongNetwork := isWrongNetwork prev |}.

Definition set_isWalletAvailable (v : bool) (prev : WalletState) : WalletState :=
  {| address := address prev;
     isConnected := isConnected prev;
     isConnecting := isConnecting prev;
     isDisconnecting := isDisconnecting prev;
     error := error prev;
     isWalletAvailable := v;
     network := network prev;
     isWrongNetwork := isWrongNetwork prev |}.

Definition set_network (v : option string) (prev : WalletState) : WalletState :=
  {| address := address prev;
     isConnected := isConnected prev;
     isConnecting := isConnecting prev;
     isDisconnecting := isDisconnecting prev;
     error := error prev;
     isWalletAvailable := isWalletAvailable prev;
     network := v;
     isWrongNetwork := isWrongNetwork prev |}.

Definition set_isWrongNetwork (v : bool) (prev : WalletState) : WalletState :=
  {| address := address prev;
     isConnected := isConnected prev;
     isConnecting := isConnecting prev;
     isDisconnecting := isDisconnecting prev;
     error := error prev;
     isWalletAvailable := isWalletAvailable prev;
     network := network prev;
     isWrongNetwork := v |}.

(** ** The collaborators that are imported by the hook *)

(** [STELLAR_CONFIG]: the label of the required network ([network]) and the
    passphrase that identifies it ([networkPassphrase]). The hook reads only
    these two fields. *)
Module StellarConfig.
Record t : Type := make {
  network : string;
  networkPassphrase : string
}.
End StellarConfig.

(** The object [connectWallet] resolves to:
    [{ success: boolean, address?: string, error?: string }]. *)
Module ConnectResult.
Record t : Type := make {
  success : bool;
  address : option string;
  error : option string
}.
End ConnectResult.

(** The wallet service. Each function is asynchronous and acts on the wallet
    (the browser extension and its user), which the hook cannot see: a call
    takes the wallet's [World] to an outcome and a new world. The account
    address and the network are stored in fields of type [string | null], so
    their results are optional strings. *)
Class WalletService (World Tx Signed : Type) : Type := {
  isWalletInstalled : World -> outcome bool * World;
  isWalletConnected : World -> outcome bool * World;
  getAccountAddress : World -> outcome (option string) * World;
  getNetwork : World -> outcome (option string) * World;
  setNetwork : string -> World -> outcome unit * World;
  connectWallet : World -> outcome ConnectResult.t * World;
  disconnectWallet : World -> outcome unit * World;
  signTransaction : Tx -> World -> outcome Signed * World
}.

(** What an operation does that can be observed from outside. *)
Inductive GatewayCall (Tx : Type) : Type :=
| CallIsWalletInstalled
| CallIsWalletConnected
| CallGetAccountAddress
| CallGetNetwork
| CallSetNetwork (passphrase : string)
| CallConnectWallet
| CallDisconnectWallet
| CallSignTransaction (transaction : Tx).
Arguments CallIsWalletInstalled {Tx}.
Arguments CallIsWalletConnected {Tx}.
Arguments CallGetAccountAddress {Tx}.
Arguments CallGetNetwork {Tx}.
Arguments CallSetNetwork {Tx} passphrase.
Arguments CallConnectWallet {Tx}.
Arguments CallDisconnectWallet {Tx}.
Arguments CallSignTransaction {Tx} transaction.

Inductive Event (Tx : Type) : Type :=
| EvCall (c : GatewayCall Tx)       (* a wallet-service function was called *)
| EvSet (s : WalletState).          (* [setState] committed the state [s] *)
Arguments EvCall {Tx} c.
Arguments EvSet {Tx} s.

(** The wallet-service calls of a trace, in order. *)
Fixpoint gateway_calls {Tx : Type} (t : list (Event Tx)) : list (GatewayCall Tx) :=
  match t with
  | [] => []
  | EvCall c :: t' => c :: gateway_calls t'
  | EvSet _ :: t' => gateway_calls t'
  end.

(** The states committed by a trace, in order. *)
Fixpoint committed {Tx : Type} (t : list (Event Tx)) : list WalletState :=
  match t with
  | [] => []
  | EvCall _ :: t' => committed t'
  | EvSet s :: t' => s :: committed t'
  end.

(** ** Asynchronous computations *)

Record Run (World Tx A : Type) : Type := mkRun {
  result : outcome A;            (* the promise resolves or rejects *)
  world : World;                 (* the wallet afterwards *)
  state : WalletState;           (* the hook state afterwards *)
  trace : list (Event Tx)        (* what happened, oldest first *)
}.
Arguments mkRun {World Tx A} result world state trace.
Arguments result {World Tx A} r.
Arguments world {World Tx A} r.
Arguments state {World Tx A} r.
Arguments trace {World Tx A} r.

Definition M (World Tx A : Type) : Type := World -> WalletState -> Run World Tx A.

Section Async.
Context {World Tx : Type}.

Definition ret {A : Type} (a : A) : M World Tx A :=
  fun w s => mkRun (Returned a) w s [].

Definition throw {A : Type} (e : thrown) : M World Tx A :=
  fun w s => mkRun (Threw e) w s [].

(** Sequencing: a thrown value skips the rest; the state written so far
    stays written. *)
Definition bind {A B : Type} (m : M World Tx A) (k : A -> M World Tx B)
  : M World Tx B :=
  fun w s =>
    let r := m w s in
    match result r with
    | Returned a =>
        let r' := k a (world r) (state r) in
        mkRun (result r') (world r') (state r') (trace r ++ trace r')
    | Threw e => mkRun (Threw e) (world r) (state r) (trace r)
    end.

(** [try { m } catch (error) { handler error }] *)
Definition try_catch {A : Type} (m : M World Tx A)
           (handler : thrown -> M World Tx A) : M World Tx A :=
  fun w s =>
    let r := m w s in
    match result r with
    | Returned _ => r
    | Threw e =>
        let r' := handler e (world r) (state r) in
        mkRun (result r') (world r') (state r') (trace r ++ trace r')
    end.

(** [setState((prev) => f prev)] *)
Definition setState (f : WalletState -> WalletState) : M World Tx unit :=
  fun w s => mkRun (Returned tt) w (f s) [EvSet (f s)].

(** Reading [state] as the operation's closure holds it. Operations run one
    after another, each on the state rendered after the previous one. *)
Definition readState : M World Tx WalletState :=
  fun w s => mkRun (Returned s) w s [].

(** [await f(...)] for a wallet-service function [f]. *)
Definition await {A : Type} (c : GatewayCall Tx)
           (f : World -> outcome A * World) : M World Tx A :=
  fun w s => mkRun (fst (f w)) (snd (f w)) s [EvCall c].
End Async.

Notation "x <- m ;; k" := (bind m (fun x => k))
  (at level 61, m at next level, right associativity).
Notation "m ;;; k" := (bind m (fun _ => k))
  (at level 61, right associativity).

(** ** The hook *)

Section UseWallet.
Context {World Tx Signed : Type}.
Context (STELLAR_CONFIG : StellarConfig.t).
Context {service : WalletService World Tx Signed}.

(** The [try] block of [refresh]: the reads from the wallet and the update
    that follows them. *)
Definition refresh_try : M World Tx unit :=
  available <- await CallIsWalletInstalled isWalletInstalled ;;
  connected <- await CallIsWalletConnected isWalletConnected ;;
  address <- (if (connected : bool)
              then await CallGetAccountAddress getAccountAddress
              else ret None) ;;
  network <- (if (connected : bool)
              then await CallGetNetwork getNetwork
              else ret None) ;;
  let isWrongNetwork :=
    connected && negb (strict_eq network None) &&
    negb (strict_eq network
            (Some (StellarConfig.networkPassphrase STELLAR_CONFIG))) in
  setState (fun prev =>
    set_error None
      (set_isWrongNetwork isWrongNetwork
        (set_network network
          (set_address address
            (set_isConnected connected
              (set_isWalletAvailable available prev)))))).

(** Check wallet availability and connection status. *)
Definition refresh : M World Tx unit :=
  try_catch refresh_try
    (fun error =>
       setState (fun prev =>
         set_error (Some (message_or error "Unknown error")) prev)).

(** The [try] block of [connect]. *)
Definition connect_try : M World Tx unit :=
  result <- await CallConnectWallet connectWallet ;;
  if ConnectResult.success result && truthy (ConnectResult.address result)
  then
    (* After connection, refresh to get network status *)
    refresh
  else
    setState (fun prev =>
      set_error
        (Some (or_else (ConnectResult.error result) "Failed to connect wallet"))
        (set_isConnecting false prev)).

(** Connect to wallet. *)
Definition connect : M World Tx unit :=
  setState (fun prev => set_error None (set_isConnecting true prev)) ;;;
  try_catch connect_try
    (fun error =>
       setState (fun prev =>
         set_error (Some (message_or error "Failed to connect wallet"))
           (set_isConnecting false prev))).

(** Disconnect wallet. *)
Definition disconnect : M World Tx unit :=
  setState (fun prev => set_error None (set_isDisconnecting true prev)) ;;;
  try_catch
    (await CallDisconnectWallet disconnectWallet ;;;
     setState (fun prev =>
       {| address := None;
          isConnected := false;
          isConnecting := false;
          isDisconnecting := false;
          error := None;
          isWalletAvailable := isWalletAvailable prev;
          network := None;
          isWrongNetwork := false |}))
    (fun error =>
       setState (fun prev =>
         set_error (Some (message_or error "Failed to disconnect wallet"))
           (set_isDisconnecting false prev))).

(** Switch network to the one required by the app. *)
Definition switchNetwork : M World Tx unit :=
  try_catch
    (await (CallSetNetwork (StellarConfig.networkPassphrase STELLAR_CONFIG))
           (setNetwork (StellarConfig.networkPassphrase STELLAR_CONFIG)) ;;;
     refresh)
    (fun error =>
       setState (fun prev =>
         set_error (Some (message_or error "Failed to switch network")) prev)).

(** Sign a transaction. *)
Definition signTx (transaction : Tx) : M World Tx Signed :=
  state <- readState ;;
  if negb (isConnected state)
  then throw (JsError "Wallet not connected")
  else if isWrongNetwork state
  then throw (JsError ("Wrong network. Please switch to "
                         ++ StellarConfig.network STELLAR_CONFIG))
  else
    try_catch
      (await (CallSignTransaction transaction) (signTransaction transaction))
      (fun error =>
         setState (fun prev =>
           set_error (Some (message_or error "Failed to sign transaction")) prev) ;;;
         throw error).

(** *** Operations run one after another *)

(** The operations the hook returns. The reconciliation timer of the
    [useEffect] block calls [refresh], so a tick is an [OpRefresh]. *)
Inductive Op : Type :=
| OpRefresh
| OpConnect
| OpDisconnect
| OpSwitchNetwork
| OpSignTx (transaction : Tx).

(** Running one operation to completion; a rejection goes to the caller and
    leaves wallet and state as they are at that point. *)
Definition run_op (op : Op) (w : World) (s : WalletState) : World * WalletState :=
  match op with
  | OpRefresh => let r := refresh w s in (world r, state r)
  | OpConnect => let r := connect w s in (world r, state r)
  | OpDisconnect => let r := disconnect w s in (world r, state r)
  | OpSwitchNetwork => let r := switchNetwork w s in (world r, state r)
  | OpSignTx transaction => let r := signTx transaction w s in (world r, state r)
  end.

Fixpoint run_ops (ops : list Op) (w : World) (s : WalletState)
  : World * WalletState :=
  match ops with
  | [] => (w, s)
  | op :: ops' => let '(w', s') := run_op op w s in run_ops ops' w' s'
  end.

(** The snapshot after a sequence of operations on a freshly mounted hook. *)
Definition snapshot_after (ops : list Op) (w : World) : WalletState :=
  snd (run_ops ops w initialState).

(** *** Properties of snapshots and runs *)

(** [isWrongNetwork] is what it is derived from. *)
Definition wrong_network_consistent (s : WalletState) : Prop :=
  isWrongNetwork s = true <->
  (isConnected s = true /\
   exists n, network s = Some n /\
             n <> StellarConfig.networkPassphrase STELLAR_CONFIG).

(** The update [refresh] commits when all its reads return. *)
Definition refreshed (available connected : bool)
           (address network : option string) (prev : WalletState)
  : WalletState :=
  {| address := address;
     isConnected := connected;
     isConnecting := isConnecting prev;
     isDisconnecting := isDisconnecting prev;
     error := None;
     isWalletAvailable := available;
     network := network;
     isWrongNetwork :=
       connected && negb (strict_eq network None) &&
       negb (strict_eq network
               (Some (StellarConfig.networkPassphrase STELLAR_CONFIG))) |}.

(** [isWrongNetwork] holds the value the expression in [refresh] gives on
    the snapshot's own [isConnected] and [network]. *)
Definition wrong_network_derived (s : WalletState) : Prop :=
  isWrongNetwork s =
    isConnected s && negb (strict_eq (network s) None) &&
    negb (strict_eq (network s)
            (Some (StellarConfig.networkPassphrase STELLAR_CONFIG))).

(** What every completed operation re-establishes. *)
Definition settled (s : WalletState) : Prop :=
  wrong_network_derived s /\ isDisconnecting s = false.

(** The first thing a run does is commit a state whose [error] is null. *)
Definition clears_error_first {A : Type} (r : Run World Tx A) : Prop :=
  exists s rest, trace r = EvSet s :: rest /\ error s = None.
End UseWallet.

Arguments Op : clear implicits.

(** ** A simulated wallet

    A small wallet extension with one account, used to run the hook on
    concrete inputs. *)

Module Demo.
Record Wallet : Type := mkWallet {
  installed : bool;        (* the extension is present *)
  reachable : bool;        (* the extension answers; if not, calls throw *)
  connected : bool;        (* the site is connected to the account *)
  account : string;        (* the account's address *)
  active : string;         (* passphrase of the wallet's active network *)
  approves : bool          (* the user approves what is asked *)
}.

Definition config : StellarConfig.t :=
  StellarConfig.make "testnet" "Test SDF Network ; September 2015".

Definition public_passphrase : string :=
  "Public Global Stellar Network ; September 2015".

Definition answer {A : Type} (w : Wallet) (a : A) : outcome A * Wallet :=
  if reachable w
  then (Returned a, w)
  else (Threw (JsError "Wallet unreachable"), w).

Definition wallet_connect (w : Wallet) : outcome ConnectResult.t * Wallet :=
  if negb (reachable w) then (Threw (JsError "Wallet unreachable"), w)
  else if approves w
  then (Returned (ConnectResult.make true (Some (account w)) None),
        mkWallet (installed w) (reachable w) true (account w) (active w)
                 (approves w))
  else (Returned (ConnectResult.make false None (Some "User rejected")), w).

Definition wallet_disconnect (w : Wallet) : outcome unit * Wallet :=
  if reachable w
  then (Returned tt,
        mkWallet (installed w) (reachable w) false (account w) (active w)
                 (approves w))
  else (Threw (JsError "Wallet unreachable"), w).

Definition wallet_setNetwork (passphrase : string) (w : Wallet)
  : outcome unit * Wallet :=
  if reachable w && approves w
  then (Returned tt,
        mkWallet (installed w) (reachable w) (connected w) (account w)
                 passphrase (approves w))
  else (Threw (JsError "User rejected"), w).

Definition wallet_sign (transaction : string) (w : Wallet)
  : outcome string * Wallet :=
  if reachable w && approves w
  then (Returned (transaction ++ ":signed"), w)
  else (Threw (JsError "User rejected"), w).

#[export] Instance service : WalletService Wallet string string := {|
  isWalletInstalled w := answer w (installed w);
  isWalletConnected w := answer w (connected w);
  getAccountAddress w := answer w (Some (account w));
  getNetwork w := answer w (Some (active w));
  setNetwork := wallet_setNetwork;
  connectWallet := wallet_connect;
  disconnectWallet := wallet_disconnect;
  signTransaction := wallet_sign
|}.

(** A wallet that is installed, on the required network, not yet connected,
    whose user approves. *)
Definition fresh : Wallet :=
  mkWallet true true false "G123" (StellarConfig.networkPassphrase config) true.

(** The same wallet with a user who rejects. *)
Definition rejecting : Wallet :=
  mkWallet true true false "G123" (StellarConfig.networkPassphrase config) false.

(** A wallet whose extension does not answer. *)
Definition unreachable : Wallet :=
  mkWallet true false false "G123" (StellarConfig.networkPassphrase config) true.

(** A connected wallet on the public network. *)
Definition on_public : Wallet :=
  mkWallet true true true "G123" public_passphrase true.

(** A connected wallet on the required network. *)
Definition on_required : Wallet :=
  mkWallet true true true "G123" (StellarConfig.networkPassphrase config) true.


(** Snapshots the hook holds for these wallets. *)
Definition connected_snapshot : WalletState :=
  {| address := Some "G123";
     isConnected := true;
     isConnecting := false;
     isDisconnecting := false;
     error := None;
     isWalletAvailable := true;
     network := Some (StellarConfig.networkPassphrase config);
     isWrongNetwork := false |}.

Definition wrong_network_snapshot : WalletState :=
  set_isWrongNetwork true (set_network (Some public_passphrase) connected_snapshot).

Definition stale_error_snapshot : WalletState :=
  set_error (Some "User rejected") connected_snapshot.
End Demo.

(** ** More of the hook: the reconciliation effect and what operations commit *)

(** The wallet-service functions that only ask the wallet something. *)
Definition is_read {Tx : Type} (c : GatewayCall Tx) : bool :=
  match c with
  | CallIsWalletInstalled | CallIsWalletConnected
  | CallGetAccountAddress | CallGetNetwork => true
  | _ => false
  end.

(** A wallet service whose four queries leave the wallet as it is. *)
Definition queries_leave_wallet {World Tx Signed : Type}
           (service : WalletService World Tx Signed) : Prop :=
  forall w : World,
    snd (isWalletInstalled w) = w /\
    snd (isWalletConnected w) = w /\
    snd (getAccountAddress w) = w /\
    snd (getNetwork w) = w.

(** A snapshot that is not connected holds no address and no network. *)
Definition blank_when_disconnected (s : WalletState) : Prop :=
  isConnected s = false ->
  address s = None /\ network s = None /\ isWrongNetwork s = false.

Section Reconciliation.
Context {World Tx Signed : Type}.
Context (STELLAR_CONFIG : StellarConfig.t).
Context {service : WalletService World Tx Signed}.

(** The [useEffect] block: [refresh()] on mount, then once per tick of the
    interval timer until the cleanup clears it. With [ticks] ticks elapsed
    the effect has started these operations. *)
Definition useEffect_ops (ticks : nat) : list (Op Tx) :=
  OpRefresh :: repeat OpRefresh ticks.

(** The states an operation commits while it runs, in order: what the UI
    gets to render. *)
Definition commits_of (op : Op Tx) (w : World) (s : WalletState)
  : list WalletState :=
  match op with
  | OpRefresh => committed (trace (refresh STELLAR_CONFIG w s))
  | OpConnect => committed (trace (connect STELLAR_CONFIG w s))
  | OpDisconnect => committed (trace (disconnect w s))
  | OpSwitchNetwork => committed (trace (switchNetwork STELLAR_CONFIG w s))
  | OpSignTx transaction =>
      committed (trace (signTx STELLAR_CONFIG transaction w s))
  end.

(** The wallet-service calls an operation makes, in order. *)
Definition calls_of (op : Op Tx) (w : World) (s : WalletState)
  : list (GatewayCall Tx) :=
  match op with
  | OpRefresh => gateway_calls (trace (refresh STELLAR_CONFIG w s))
  | OpConnect => gateway_calls (trace (connect STELLAR_CONFIG w s))
  | OpDisconnect => gateway_calls (trace (disconnect w s))
  | OpSwitchNetwork => gateway_calls (trace (switchNetwork STELLAR_CONFIG w s))
  | OpSignTx transaction =>
      gateway_calls (trace (signTx STELLAR_CONFIG transaction w s))
  end.
End Reconciliation.

(** ** The button that enters a raffle ([EnterRaffleButton.tsx])

    The component reads [isConnected], [isWrongNetwork], [connect] and
    [switchNetwork] from the wallet context, which holds what [useWallet]
    returns, and keeps one piece of state of its own, [isLoading]. *)

(** What the button shows: a string, or an element passed by the parent. *)
Inductive ReactNode : Type :=
| Text (s : string)
| Element (key : nat).

(** What the component does that can be observed, apart from wallet
    operations. *)
Inductive ButtonEvent (Number : Type) : Type :=
| SetIsLoading (v : bool)
| Timeout (ms : nat)
| ConsoleLog (raffleId : Number) (ticketPrice : string)
| ConsoleError (err : thrown)
| CalledOnSuccess
| CalledOnError (message : string).
Arguments SetIsLoading {Number} v.
Arguments Timeout {Number} ms.
Arguments ConsoleLog {Number} raffleId ticketPrice.
Arguments ConsoleError {Number} err.
Arguments CalledOnSuccess {Number}.
Arguments CalledOnError {Number} message.

(** [EnterRaffleButtonProps]. A callback is given by what calling it does:
    it returns or it throws; an optional prop that is not passed is [None]. *)
Record EnterRaffleButtonProps (Number : Type) : Type := {
  raffleId : Number;
  ticketPrice : string;
  onSuccess : option (outcome unit);
  onError : option (string -> outcome unit);
  className : option string;
  children : option ReactNode
}.
Arguments raffleId {Number} _.
Arguments ticketPrice {Number} _.
Arguments onSuccess {Number} _.
Arguments onError {Number} _.
Arguments className {Number} _.
Arguments children {Number} _.

(** A run of [handleEnterRaffle]. *)
Record Entry (Number : Type) : Type := mkEntry {
  entry_result : outcome unit;          (* the promise resolves or rejects *)
  entry_isLoading : bool;               (* [isLoading] afterwards *)
  entry_log : list (ButtonEvent Number) (* what happened, oldest first *)
}.
Arguments mkEntry {Number} entry_result entry_isLoading entry_log.
Arguments entry_result {Number} _.
Arguments entry_isLoading {Number} _.
Arguments entry_log {Number} _.

(** What a click sets off: a wallet operation, or an entry into the raffle. *)
Inductive Click (World Tx Number : Type) : Type :=
| WalletOperation (r : Run World Tx unit)
| RaffleEntry (e : Entry Number).
Arguments WalletOperation {World Tx Number} r.
Arguments RaffleEntry {World Tx Number} e.

(** What the component renders on the [button] element. *)
Record Rendered : Type := mkRendered {
  disabled : bool;
  rendered_className : string;
  rendered_children : ReactNode
}.

(** The default values of the props [className] and [children]. *)
Definition default_className : string :=
  "border border-[#fe3796] px-8 py-4 rounded-xl hover:bg-[#fe3796]/10 transition".

Definition default_children : ReactNode := Text "Enter Raffle".

(** [s.charAt(0)] and [s.slice(1)]. *)
Definition charAt0 (s : string) : string := substring 0 1 s.

Definition slice1 (s : string) : string := substring 1 (String.length s - 1) s.

Section EnterRaffleButton.
Context {World Tx Signed Number : Type}.
Context (STELLAR_CONFIG : StellarConfig.t).
Context {service : WalletService World Tx Signed}.
(** [String.prototype.toUpperCase] of the JavaScript runtime. *)
Context (toUpperCase : string -> string).

Definition targetNetwork : string :=
  toUpperCase (charAt0 (StellarConfig.network STELLAR_CONFIG))
  ++ slice1 (StellarConfig.network STELLAR_CONFIG).

(** The entry itself (a demo: it waits and logs). The [try] block can only
    throw in [onSuccess], the [catch] block only in [onError]; the [finally]
    block runs in every case. *)
Definition handleEnterRaffle (p : EnterRaffleButtonProps Number) : Entry Number :=
  (* try *)
  let tried : outcome unit * list (ButtonEvent Number) :=
    match onSuccess p with
    | Some called =>
        (called,
         [Timeout 900; ConsoleLog (raffleId p) (ticketPrice p); CalledOnSuccess])
    | None =>
        (Returned tt, [Timeout 900; ConsoleLog (raffleId p) (ticketPrice p)])
    end in
  (* catch (err) *)
  let caught : outcome unit * list (ButtonEvent Number) :=
    match fst tried with
    | Returned _ => (Returned tt, [])
    | Threw err =>
        match onError p with
        | Some callback =>
            (callback (message_or err "Failed to buy ticket"),
             [ConsoleError err;
              CalledOnError (message_or err "Failed to buy ticket")])
        | None => (Returned tt, [ConsoleError err])
        end
    end in
  (* finally *)
  mkEntry (fst caught) false
          ([SetIsLoading true] ++ snd tried ++ snd caught ++ [SetIsLoading false]).

(** The click handler, on the snapshot the component was rendered with.
    [connect] and [switchNetwork] are awaited; the entry is started and runs
    to its end on its own. *)
Definition handleButtonClick (p : EnterRaffleButtonProps Number)
           (w : World) (s : WalletState) : Click World Tx Number :=
  if negb (isConnected s)
  then WalletOperation (connect STELLAR_CONFIG w s)
  else if isWrongNetwork s
  then WalletOperation (switchNetwork STELLAR_CONFIG w s)
  else RaffleEntry (handleEnterRaffle p).

Definition getButtonText (p : EnterRaffleButtonProps Number)
           (isLoading : bool) (s : WalletState) : ReactNode :=
  if isLoading then Text "Processing..."
  else if negb (isConnected s) then Text "Connect Wallet"
  else if isWrongNetwork s then Text ("Switch to " ++ targetNetwork)
  else match children p with
       | Some node => node
       | None => default_children
       end.

(** The class added while the button asks for a wallet action. *)
Definition call_to_action : string :=
  "!bg-indigo-600 !text-white !border-indigo-600 hover:!bg-indigo-700".

Definition render (p : EnterRaffleButtonProps Number)
           (isLoading : bool) (s : WalletState) : Rendered :=
  {| disabled := isLoading;
     rendered_className :=
       match className p with
       | Some c => c
       | None => default_className
       end
       ++ " " ++ (if isLoading then "opacity-50 cursor-not-allowed" else "")
       ++ " " ++ (if (negb (isConnected s) || isWrongNetwork s) && negb isLoading
                  then call_to_action else "");
     rendered_children := getButtonText p isLoading s |}.
End EnterRaffleButton.

(** A wallet that reports a successful connection but does not keep it:
    the simulated wallet with another [connectWallet]. *)
Module Forgetful.
Definition wallet_connect (w : Demo.Wallet)
  : outcome ConnectResult.t * Demo.Wallet :=
  (Returned (ConnectResult.make true (Some (Demo.account w)) None), w).

Definition service : WalletService Demo.Wallet string string := {|
  isWalletInstalled := isWalletInstalled (WalletService := Demo.service);
  isWalletConnected := isWalletConnected (WalletService := Demo.service);
  getAccountAddress := getAccountAddress (WalletService := Demo.service);
  getNetwork := getNetwork (WalletService := Demo.service);
  setNetwork := setNetwork (WalletService := Demo.service);
  connectWallet := wallet_connect;
  disconnectWallet := disconnectWallet (WalletService := Demo.service);
  signTransaction := signTransaction (WalletService := Demo.service)
|}.
End Forgetful.

(** A wallet that answers every call as a script says, and stays as it
    is. *)
Module Scripted.
Record Script : Type := mkScript {
  installed_answer : outcome bool;
  connected_answer : outcome bool;
  address_answer : outcome (option string);
  network_answer : outcome (option string);
  setNetwork_answer : outcome unit;
  connect_answer : outcome ConnectResult.t;
  disconnect_answer : outcome unit;
  sign_answer : outcome string
}.

Definition service : WalletService Script string string := {|
  isWalletInstalled w := (installed_answer w, w);
  isWalletConnected w := (connected_answer w, w);
  getAccountAddress w := (address_answer w, w);
  getNetwork w := (network_answer w, w);
  setNetwork _ w := (setNetwork_answer w, w);
  connectWallet w := (connect_answer w, w);
  disconnectWallet w := (disconnect_answer w, w);
  signTransaction _ w := (sign_answer w, w)
|}.


(** A wallet that answers [connectWallet] as given and is otherwise an
    installed, not connected wallet. *)
Definition connecting (answer : outcome ConnectResult.t) : Script :=
  mkScript (Returned true) (Returned false) (Returned None) (Returned None)
           (Returned tt) answer (Returned tt) (Threw JsOther).

End Scripted.

(** A page with the button, on the simulated wallet. *)
Module Page.
(** Props with nothing optional passed. *)
Definition plain : EnterRaffleButtonProps nat :=
  {| raffleId := 7;
     ticketPrice := "10";
     onSuccess := None;
     onError := None;
     className := None;
     children := None |}.
End Page.

(** * Properties of the hook *)

(** Unfolding the asynchronous combinators. *)
Ltac unfold_async :=
  cbv beta delta [bind try_catch setState readState await ret throw] in *.

(** Case analysis on the next wallet-service call of the goal. *)
Ltac next_call f :=
  let o := fresh "o" in
  let w' := fresh "w" in
  let E := fresh "E" in
  destruct f as [o w'] eqn:E; cbn [fst snd] in *;
  destruct o; cbn [result world state trace fst snd app] in *.

Lemma committed_app {Tx : Type} (t u : list (Event Tx)) :
  committed (t ++ u)%list = (committed t ++ committed u)%list.
Proof.
  induction t as [|[c|x] t IH]; cbn; rewrite ?IH; reflexivity.
Qed.

(** [bind] and [try_catch] by cases on the run of their first part. *)
Lemma bind_run {World Tx A B : Type} (m : M World Tx A) (k : A -> M World Tx B)
      (w : World) (s : WalletState) :
  bind m k w s =
  match m w s with
  | mkRun (Returned a) w1 s1 t1 =>
      match k a w1 s1 with
      | mkRun o w2 s2 t2 => mkRun o w2 s2 (t1 ++ t2)
      end
  | mkRun (Threw e) w1 s1 t1 => mkRun (Threw e) w1 s1 t1
  end.
Proof.
  unfold bind.
  destruct (m w s) as [[a|e] w1 s1 t1]; cbn [result world state trace].
  - destruct (k a w1 s1); reflexivity.
  - reflexivity.
Qed.

Lemma try_catch_run {World Tx A : Type} (m : M World Tx A)
      (handler : thrown -> M World Tx A) (w : World) (s : WalletState) :
  try_catch m handler w s =
  match m w s with
  | mkRun (Returned a) w1 s1 t1 => mkRun (Returned a) w1 s1 t1
  | mkRun (Threw e) w1 s1 t1 =>
      match handler e w1 s1 with
      | mkRun o w2 s2 t2 => mkRun o w2 s2 (t1 ++ t2)
      end
  end.
Proof.
  unfold try_catch.
  destruct (m w s) as [[a|e] w1 s1 t1]; cbn [result world state trace].
  - reflexivity.
  - destruct (handler e w1 s1); reflexivity.
Qed.

Section Properties.
Context {World Tx Signed : Type}.
Context (STELLAR_CONFIG : StellarConfig.t).
Context {service : WalletService World Tx Signed}.

Local Abbreviation passphrase :=
  (StellarConfig.networkPassphrase STELLAR_CONFIG).

(** ** [refresh] *)

(** The run of the [try] block of [refresh], by the answers of the wallet. *)
Lemma refresh_try_run (w : World) (s : WalletState) :
  refresh_try STELLAR_CONFIG w s =
  match isWalletInstalled w with
  | (Threw e, w0) => mkRun (Threw e) w0 s [EvCall CallIsWalletInstalled]
  | (Returned available, w0) =>
      match isWalletConnected w0 with
      | (Threw e, w1) =>
          mkRun (Threw e) w1 s
                [EvCall CallIsWalletInstalled; EvCall CallIsWalletConnected]
      | (Returned false, w1) =>
          mkRun (Returned tt) w1
                (refreshed STELLAR_CONFIG available false None None s)
                [EvCall CallIsWalletInstalled; EvCall CallIsWalletConnected;
                 EvSet (refreshed STELLAR_CONFIG available false None None s)]
      | (Returned true, w1) =>
          match getAccountAddress w1 with
          | (Threw e, w2) =>
              mkRun (Threw e) w2 s
                    [EvCall CallIsWalletInstalled; EvCall CallIsWalletConnected;
                     EvCall CallGetAccountAddress]
          | (Returned address, w2) =>
              match getNetwork w2 with
              | (Threw e, w3) =>
                  mkRun (Threw e) w3 s
                        [EvCall CallIsWalletInstalled;
                         EvCall CallIsWalletConnected;
                         EvCall CallGetAccountAddress; EvCall CallGetNetwork]
              | (Returned network, w3) =>
                  mkRun (Returned tt) w3
                        (refreshed STELLAR_CONFIG available true address network s)
                        [EvCall CallIsWalletInstalled;
                         EvCall CallIsWalletConnected;
                         EvCall CallGetAccountAddress; EvCall CallGetNetwork;
                         EvSet (refreshed STELLAR_CONFIG available true
                                          address network s)]
              end
          end
      end
  end.
Proof.
  unfold refresh_try.
  rewrite bind_run. unfold await at 1.
  destruct (isWalletInstalled w) as [[available|e] w0]; cbn [fst snd];
    [|reflexivity].
  rewrite bind_run. unfold await at 1.
  destruct (isWalletConnected w0) as [[[|]|e] w1]; cbn [fst snd];
    [| |reflexivity].
  - rewrite bind_run. unfold await at 1.
    destruct (getAccountAddress w1) as [[address|e] w2]; cbn [fst snd];
      [|reflexivity].
    rewrite bind_run. unfold await at 1.
    destruct (getNetwork w2) as [[network|e] w3]; cbn [fst snd];
      reflexivity.
  - reflexivity.
Qed.

(** The run of [refresh], by the answers of the wallet. *)
Lemma refresh_run (w : World) (s : WalletState) :
  refresh STELLAR_CONFIG w s =
  match isWalletInstalled w with
  | (Threw e, w0) =>
      mkRun (Returned tt) w0
            (set_error (Some (message_or e "Unknown error")) s)
            [EvCall CallIsWalletInstalled;
             EvSet (set_error (Some (message_or e "Unknown error")) s)]
  | (Returned available, w0) =>
      match isWalletConnected w0 with
      | (Threw e, w1) =>
          mkRun (Returned tt) w1
                (set_error (Some (message_or e "Unknown error")) s)
                [EvCall CallIsWalletInstalled; EvCall CallIsWalletConnected;
                 EvSet (set_error (Some (message_or e "Unknown error")) s)]
      | (Returned false, w1) =>
          mkRun (Returned tt) w1
                (refreshed STELLAR_CONFIG available false None None s)
                [EvCall CallIsWalletInstalled; EvCall CallIsWalletConnected;
                 EvSet (refreshed STELLAR_CONFIG available false None None s)]
      | (Returned true, w1) =>
          match getAccountAddress w1 with
          | (Threw e, w2) =>
              mkRun (Returned tt) w2
                    (set_error (Some (message_or e "Unknown error")) s)
                    [EvCall CallIsWalletInstalled; EvCall CallIsWalletConnected;
                     EvCall CallGetAccountAddress;
                     EvSet (set_error (Some (message_or e "Unknown error")) s)]
          | (Returned address, w2) =>
              match getNetwork w2 with
              | (Threw e, w3) =>
                  mkRun (Returned tt) w3
                        (set_error (Some (message_or e "Unknown error")) s)
                        [EvCall CallIsWalletInstalled;
                         EvCall CallIsWalletConnected;
                         EvCall CallGetAccountAddress; EvCall CallGetNetwork;
                         EvSet (set_error
                                  (Some (message_or e "Unknown error")) s)]
              | (Returned network, w3) =>
                  mkRun (Returned tt) w3
                        (refreshed STELLAR_CONFIG available true address network s)
                        [EvCall CallIsWalletInstalled;
                         EvCall CallIsWalletConnected;
                         EvCall CallGetAccountAddress; EvCall CallGetNetwork;
                         EvSet (refreshed STELLAR_CONFIG available true
                                          address network s)]
              end
          end
      end
  end.
Proof.
  unfold refresh. rewrite try_catch_run, refresh_try_run.
  destruct (isWalletInstalled w) as [[available|e] w0]; [|reflexivity].
  destruct (isWalletConnected w0) as [[[|]|e] w1]; [| |reflexivity].
  - destruct (getAccountAddress w1) as [[address|e] w2]; [|reflexivity].
    destruct (getNetwork w2) as [[network|e] w3]; reflexivity.
  - reflexivity.
Qed.

(** The [try] block of [refresh] either throws without committing anything,
    or returns after committing exactly one state built from what it read. *)
Lemma refresh_try_cases (w : World) (s : WalletState) :
  let r := refresh_try STELLAR_CONFIG w s in
  (exists e, result r = Threw e /\ state r = s /\ committed (trace r) = []) \/
  (exists available connected address network,
      result r = Returned tt /\
      state r = refreshed STELLAR_CONFIG available connected address network s /\
      committed (trace r) = [state r]).
Proof.
  intros r. subst r. rewrite refresh_try_run.
  destruct (isWalletInstalled w) as [[a|e] w0];
    [|left; exists e; repeat split].
  destruct (isWalletConnected w0) as [[[|]|e] w1];
    [| |left; exists e; repeat split].
  - destruct (getAccountAddress w1) as [[a0|e] w2];
      [|left; exists e; repeat split].
    destruct (getNetwork w2) as [[a1|e] w3];
      [|left; exists e; repeat split].
    right. exists a, true, a0, a1. repeat split.
  - right. exists a, false, None, None. repeat split.
Qed.

(** [refresh] itself never rejects. *)
Lemma refresh_returns (w : World) (s : WalletState) :
  result (refresh STELLAR_CONFIG w s) = Returned tt.
Proof.
  unfold refresh.
  destruct (refresh_try_cases w s) as [(e & R & _) | (a & c & ad & n & R & _)];
    unfold try_catch; rewrite R; auto.
Qed.

(** What [refresh] leaves behind, by the outcome of its [try] block. *)
Lemma refresh_state (w : World) (s : WalletState) :
  let r := refresh STELLAR_CONFIG w s in
  match result (refresh_try STELLAR_CONFIG w s) with
  | Threw e =>
      state r = set_error (Some (message_or e "Unknown error")) s /\
      committed (trace r) = [state r]
  | Returned _ =>
      (exists available connected address network,
          state r = refreshed STELLAR_CONFIG available connected address network s) /\
      committed (trace r) = [state r]
  end.
Proof.
  unfold refresh.
  destruct (refresh_try_cases w s)
    as [(e & R & S & C) | (a & c & ad & n & R & S & C)];
    unfold try_catch, setState; rewrite R; cbn [result world state trace].
  - rewrite S. split; [reflexivity|].
    rewrite committed_app, C. reflexivity.
  - split; [eauto | exact C].
Qed.
(** The [try] block of [refresh] throws exactly when one of the
    wallet-service calls it makes throws. *)
Lemma refresh_try_throws_iff (w : World) (s : WalletState) (e : thrown) :
  let i := isWalletInstalled w in
  let c := isWalletConnected (snd i) in
  let a := getAccountAddress (snd c) in
  let n := getNetwork (snd a) in
  result (refresh_try STELLAR_CONFIG w s) = Threw e <->
  (fst i = Threw e \/
   ((exists v, fst i = Returned v) /\
    (fst c = Threw e \/
     (fst c = Returned true /\
      (fst a = Threw e \/
       ((exists v, fst a = Returned v) /\ fst n = Threw e)))))).
Proof.
  unfold refresh_try. unfold_async.
  destruct (isWalletInstalled w) as [[v|x] w0]; cbn.
  2: { split; [intros [= ->]; auto | intros [[= ->] | [[v [=]] _]]; auto]. }
  destruct (isWalletConnected w0) as [[[|]|x] w1]; cbn.
  - destruct (getAccountAddress w1) as [[v1|x] w2]; cbn.
    + destruct (getNetwork w2) as [[v2|x] w3]; cbn.
      * split; [intros [=] |].
        intros [[=] | [_ [[=] | [_ [[=] | [_ [=]]]]]]].
      * split; [intros [= ->]; right; split; eauto 8 |].
        intros [[=] | [_ [[=] | [_ [[=] | [_ [= ->]]]]]]]; auto.
    + split; [intros [= ->]; right; split; eauto 8 |].
      intros [[=] | [_ [[=] | [_ [[= ->] | [[? [=]] _]]]]]]; auto.
  - split; [intros [=] |].
    intros [[=] | [_ [[=] | [[=] _]]]].
  - split; [intros [= ->]; right; split; eauto |].
    intros [[=] | [_ [[= ->] | [[=] _]]]]; auto.
Qed.

(** [refresh] never touches the two transient flags. *)
Lemma refresh_keeps_flags (w : World) (s : WalletState) :
  isConnecting (state (refresh STELLAR_CONFIG w s)) = isConnecting s /\
  isDisconnecting (state (refresh STELLAR_CONFIG w s)) = isDisconnecting s.
Proof.
  pose proof (refresh_state w s) as H; cbv zeta in H.
  destruct (result (refresh_try STELLAR_CONFIG w s)).
  - destruct H as [(a' & c & ad & n & ->) _]. auto.
  - destruct H as [-> _]. auto.
Qed.


(** C10: a successful [refresh] leaves [isConnecting] and [isDisconnecting]
    as they were; the state it commits replaces [isWalletAvailable],
    [isConnected], [address], [network], [isWrongNetwork] and [error] and
    carries the two flags over from the previous snapshot. *)
Theorem refresh_success_frame (w : World) (s : WalletState) :
  result (refresh_try STELLAR_CONFIG w s) = Returned tt ->
  let s' := state (refresh STELLAR_CONFIG w s) in
  isConnecting s' = isConnecting s /\
  isDisconnecting s' = isDisconnecting s /\
  exists available connected address network,
    s' = {| address := address;
            isConnected := connected;
            isConnecting := isConnecting s;
            isDisconnecting := isDisconnecting s;
            error := None;
            isWalletAvailable := available;
            network := network;
            isWrongNetwork :=
              connected && negb (strict_eq network None) &&
              negb (strict_eq network (Some passphrase)) |}.
Proof.
  intros H s'. subst s'.
  destruct (refresh_keeps_flags w s) as [F1 F2].
  repeat split; auto.
  pose proof (refresh_state w s) as S; cbv zeta in S.
  rewrite H in S. destruct S as [(a & c & ad & n & S) _].
  exists a, c, ad, n. rewrite S. reflexivity.
Qed.

(** ** [connect] *)

(** When the wallet reports success with a non-empty address, [connect]
    ends in the state [refresh] computes from the wallet, starting from the
    snapshot in which [isConnecting] was raised; [refresh] keeps that flag,
    so it is still raised at the end. *)
Lemma connect_success_state
      (w w1 : World) (s : WalletState) (res : ConnectResult.t) :
  connectWallet w = (Returned res, w1) ->
  ConnectResult.success res = true ->
  truthy (ConnectResult.address res) = true ->
  state (connect STELLAR_CONFIG w s) =
    state (refresh STELLAR_CONFIG w1
             (set_error None (set_isConnecting true s))) /\
  isConnecting (state (connect STELLAR_CONFIG w s)) = true.
Proof.
  intros Hc Hs Ha.
  assert (E : state (connect STELLAR_CONFIG w s) =
              state (refresh STELLAR_CONFIG w1
                       (set_error None (set_isConnecting true s)))).
  { unfold connect, connect_try. unfold_async.
    cbn [result world state trace]. rewrite Hc. cbn [fst snd result world state].
    rewrite Hs, Ha. cbn [andb].
    rewrite refresh_returns. cbn [result state]. reflexivity. }
  split; [exact E|]. rewrite E.
  destruct (refresh_keeps_flags w1 (set_error None (set_isConnecting true s)))
    as [-> _].
  reflexivity.
Qed.

(** C8: when the wallet reports failure, reports success without an address
    (absent or empty), or the call throws, [connect] ends with
    [isConnecting = false], with [error] set to the reason the wallet gave
    (the reason in the result, or the message of the thrown error) or to the
    generic message when it gave none (no or an empty reason in the result,
    or a thrown value that is not an error), and with every other field as
    before the call. *)
Theorem connect_failure_frame
        (w w1 : World) (s : WalletState) (o : outcome ConnectResult.t)
        (msg : string) :
  connectWallet w = (o, w1) ->
  ((exists res,
       o = Returned res /\
       (ConnectResult.success res = false \/
        (ConnectResult.success res = true /\
         (ConnectResult.address res = None \/
          ConnectResult.address res = Some ""))) /\
       ((ConnectResult.error res = Some msg /\ msg <> "") \/
        ((ConnectResult.error res = None \/ ConnectResult.error res = Some "") /\
         msg = "Failed to connect wallet"))) \/
   o = Threw (JsError msg) \/
   (o = Threw JsOther /\ msg = "Failed to connect wallet")) ->
  state (connect STELLAR_CONFIG w s) =
    {| address := address s;
       isConnected := isConnected s;
       isConnecting := false;
       isDisconnecting := isDisconnecting s;
       error := Some msg;
       isWalletAvailable := isWalletAvailable s;
       network := network s;
       isWrongNetwork := isWrongNetwork s |}.
Proof.
  intros Hc H.
  unfold connect, connect_try. unfold_async.
  cbn [result world state trace]. rewrite Hc. cbn [fst snd result world state].
  destruct H as [(res & -> & Hf & Hm) | [-> | [-> ->]]]; [|reflexivity..].
  assert (F : ConnectResult.success res && truthy (ConnectResult.address res)
              = false).
  { destruct Hf as [-> | (-> & [-> | ->])]; reflexivity. }
  assert (R : or_else (ConnectResult.error res) "Failed to connect wallet" = msg).
  { destruct Hm as [(E & N) | ([E | E] & ->)]; rewrite E; try reflexivity.
    cbn. apply String.eqb_neq in N. rewrite N. reflexivity. }
  rewrite F. cbn [result world state]. rewrite <- R. reflexivity.
Qed.

(** ** [disconnect] *)

(** C6: when the wallet's disconnect call succeeds, [disconnect] ends in the
    reset snapshot: not connected, no address, no network, not on the wrong
    network, no operation pending, no error, and [isWalletAvailable] as it
    was before the call. *)
Theorem disconnect_success_resets (w w1 : World) (s : WalletState) :
  disconnectWallet w = (Returned tt, w1) ->
  state (disconnect w s) =
    {| address := None;
       isConnected := false;
       isConnecting := false;
       isDisconnecting := false;
       error := None;
       isWalletAvailable := isWalletAvailable s;
       network := None;
       isWrongNetwork := false |}.
Proof.
  intros Hd. unfold disconnect. unfold_async.
  cbn [result world state trace]. rewrite Hd. reflexivity.
Qed.

(** What [disconnect] leaves behind when the wallet's call throws. *)
Lemma disconnect_failure_state
      (w w1 : World) (s : WalletState) (e : thrown) :
  disconnectWallet w = (Threw e, w1) ->
  state (disconnect w s) =
    set_error (Some (message_or e "Failed to disconnect wallet"))
      (set_isDisconnecting false (set_error None (set_isDisconnecting true s))).
Proof.
  intros Hd. unfold disconnect. unfold_async.
  cbn [result world state trace]. rewrite Hd. reflexivity.
Qed.

(** ** [switchNetwork] *)

(** [switchNetwork] ends where [refresh] ends when the wallet accepts the
    switch, and only records the failure when it does not. *)
Lemma switchNetwork_state (w : World) (s : WalletState) :
  state (switchNetwork STELLAR_CONFIG w s) =
    match fst (setNetwork passphrase w) with
    | Returned _ => state (refresh STELLAR_CONFIG (snd (setNetwork passphrase w)) s)
    | Threw e => set_error (Some (message_or e "Failed to switch network")) s
    end.
Proof.
  unfold switchNetwork. unfold_async. cbn [result world state trace].
  destruct (setNetwork passphrase w) as [[u|e] w1]; cbn [fst snd result state world].
  - rewrite refresh_returns. reflexivity.
  - reflexivity.
Qed.

(** ** [signTx] *)

(** C5: on a snapshot that is not connected [signTx] rejects with the
    not-connected error, and on a connected snapshot on the wrong network it
    rejects with the wrong-network error that names the configured network
    label; in both cases no wallet-service call is made and the snapshot
    (hence its connection fields) and the wallet are left as they were. *)
Theorem signTx_preconditions
        (transaction : Tx) (w : World) (s : WalletState) :
  let r := signTx STELLAR_CONFIG transaction w s in
  (isConnected s = false ->
   result r = Threw (JsError "Wallet not connected") /\
   gateway_calls (trace r) = [] /\ state r = s /\ world r = w) /\
  (isConnected s = true -> isWrongNetwork s = true ->
   result r = Threw (JsError ("Wrong network. Please switch to "
                                ++ StellarConfig.network STELLAR_CONFIG)) /\
   gateway_calls (trace r) = [] /\ state r = s /\ world r = w).
Proof.
  unfold signTx. unfold_async. cbn [result world state trace].
  split.
  - intros ->. cbn. auto.
  - intros -> ->. cbn. auto.
Qed.


(** ** The [error] field across operations *)




(** ** Sequences of operations *)

Lemma derived_consistent (s : WalletState) :
  wrong_network_derived STELLAR_CONFIG s ->
  wrong_network_consistent STELLAR_CONFIG s.
Proof.
  unfold wrong_network_derived, wrong_network_consistent.
  intros ->. destruct (isConnected s), (network s) as [n|]; cbn.
  - destruct (String.eqb_spec n passphrase) as [E|E]; cbn.
    + split; [discriminate|]. intros [_ (m & [= <-] & D)]. contradiction.
    + split; eauto.
  - split; [discriminate|]. intros [_ (m & [=] & _)].
  - split; [discriminate|]. intros [[=] _].
  - split; [discriminate|]. intros [[=] _].
Qed.

Lemma initialState_settled : settled STELLAR_CONFIG initialState.
Proof. split; reflexivity. Qed.

Lemma refresh_derived (w : World) (s : WalletState) :
  wrong_network_derived STELLAR_CONFIG s ->
  wrong_network_derived STELLAR_CONFIG (state (refresh STELLAR_CONFIG w s)).
Proof.
  intros D. pose proof (refresh_state w s) as S; cbv zeta in S.
  destruct (result (refresh_try STELLAR_CONFIG w s)).
  - destruct S as [(a' & c & ad & n & ->) _]. reflexivity.
  - destruct S as [-> _]. exact D.
Qed.

Lemma refresh_settled (w : World) (s : WalletState) :
  settled STELLAR_CONFIG s ->
  settled STELLAR_CONFIG (state (refresh STELLAR_CONFIG w s)).
Proof.
  intros [D F]. split; [apply refresh_derived; exact D|].
  destruct (refresh_keeps_flags w s) as [_ ->]. exact F.
Qed.

Lemma connect_settled (w : World) (s : WalletState) :
  settled STELLAR_CONFIG s ->
  settled STELLAR_CONFIG (state (connect STELLAR_CONFIG w s)).
Proof.
  intros [D F].
  assert (S0 : settled STELLAR_CONFIG (set_error None (set_isConnecting true s)))
    by (split; [exact D | exact F]).
  unfold connect, connect_try. unfold_async. cbn [result world state trace].
  destruct (connectWallet w) as [[res|e] w1]; cbn [fst snd result world state].
  - destruct (ConnectResult.success res && truthy (ConnectResult.address res)).
    + rewrite refresh_returns. cbn [result state].
      apply refresh_settled. exact S0.
    + cbn [result state]. split; [exact D | exact F].
  - split; [exact D | exact F].
Qed.

Lemma disconnect_settled (w : World) (s : WalletState) :
  wrong_network_derived STELLAR_CONFIG s ->
  settled STELLAR_CONFIG (state (disconnect w s)).
Proof.
  intros D. unfold disconnect. unfold_async. cbn [result world state trace].
  destruct (disconnectWallet w) as [[u|e] w1]; cbn [fst snd result world state].
  - split; reflexivity.
  - split; [exact D | reflexivity].
Qed.

Lemma switchNetwork_settled (w : World) (s : WalletState) :
  settled STELLAR_CONFIG s ->
  settled STELLAR_CONFIG (state (switchNetwork STELLAR_CONFIG w s)).
Proof.
  intros S. rewrite switchNetwork_state.
  destruct (fst (setNetwork passphrase w)).
  - apply refresh_settled. exact S.
  - exact S.
Qed.

Lemma signTx_settled (transaction : Tx) (w : World) (s : WalletState) :
  settled STELLAR_CONFIG s ->
  settled STELLAR_CONFIG (state (signTx STELLAR_CONFIG transaction w s)).
Proof.
  intros S. unfold signTx. unfold_async. cbn [result world state trace].
  destruct (isConnected s); cbn [negb]; [|exact S].
  destruct (isWrongNetwork s); [exact S|].
  destruct (signTransaction transaction w) as [[v|e] w1]; exact S.
Qed.

Lemma run_op_settled (op : Op Tx) (w : World) (s : WalletState) :
  settled STELLAR_CONFIG s ->
  settled STELLAR_CONFIG (snd (run_op STELLAR_CONFIG op w s)).
Proof.
  intros S. destruct op; cbn [run_op snd].
  - apply refresh_settled; exact S.
  - apply connect_settled; exact S.
  - apply disconnect_settled; exact (proj1 S).
  - apply switchNetwork_settled; exact S.
  - apply signTx_settled; exact S.
Qed.

Lemma run_ops_settled (ops : list (Op Tx)) :
  forall (w : World) (s : WalletState),
    settled STELLAR_CONFIG s ->
    settled STELLAR_CONFIG (snd (run_ops STELLAR_CONFIG ops w s)).
Proof.
  induction ops as [|op ops IH]; intros w s S; cbn [run_ops].
  - exact S.
  - pose proof (run_op_settled op w s S) as S'.
    destruct (run_op STELLAR_CONFIG op w s) as [w' s']. apply IH. exact S'.
Qed.

(** C2: after every sequence of operations on a freshly mounted hook,
    [isWrongNetwork] is true exactly when [isConnected] is true, [network]
    is not null, and [network] differs from the configured passphrase. *)
Theorem wrong_network_consistent_after_ops (ops : list (Op Tx)) (w : World) :
  wrong_network_consistent STELLAR_CONFIG (snapshot_after STELLAR_CONFIG ops w).
Proof.
  apply derived_consistent.
  exact (proj1 (run_ops_settled ops w initialState initialState_settled)).
Qed.

(** C7: after every sequence of operations, each run to completion before
    the next starts, [isConnecting] and [isDisconnecting] are not both
    true. *)
Theorem transient_flags_exclusive_after_ops (ops : list (Op Tx)) (w : World) :
  let s := snapshot_after STELLAR_CONFIG ops w in
  ~ (isConnecting s = true /\ isDisconnecting s = true).
Proof.
  intros s [_ H]. subst s.
  pose proof (proj2 (run_ops_settled ops w initialState initialState_settled)) as F.
  unfold snapshot_after in H. rewrite F in H. discriminate.
Qed.

End Properties.

(** * The hook on the simulated wallet *)

Section OnTheSimulatedWallet.
Import Demo.

(** C1 (the code departs from the claim): the wallet reports success with
    the address G123 and every read of the following [refresh] returns, yet
    the snapshot [connect] ends in still has [isConnecting = true]; the
    connection fields are the ones [refresh] read from the wallet. *)
Theorem connect_success_leaves_isConnecting :
  connectWallet fresh =
    (Returned (ConnectResult.make true (Some "G123") None), on_required) /\
  result (refresh_try config on_required
            (set_error None (set_isConnecting true initialState))) = Returned tt /\
  state (connect config fresh initialState) =
    {| address := Some "G123";
       isConnected := true;
       isConnecting := true;
       isDisconnecting := false;
       error := None;
       isWalletAvailable := true;
       network := Some "Test SDF Network ; September 2015";
       isWrongNetwork := false |}.
Proof. repeat split. Qed.


(** [refresh] starts by calling the wallet, not by clearing [error]. *)
Example refresh_reads_before_clearing :
  ~ clears_error_first (refresh config on_required stale_error_snapshot) /\
  error (state (refresh config on_required stale_error_snapshot)) = None.
Proof.
  split; [|reflexivity].
  intros (s & rest & H & _). cbn in H. discriminate H.
Qed.

(** The scenario of a rejected connection. *)
Example connect_rejected_scenario :
  state (connect config rejecting initialState) =
    set_error (Some "User rejected") initialState.
Proof. reflexivity. Qed.

(** ** Instances of the theorems that have premises *)


Lemma refresh_success_frame_witness :
  result (refresh_try config on_public
            (set_isConnecting true initialState)) = Returned tt /\
  isConnecting (state (refresh config on_public
                         (set_isConnecting true initialState))) = true /\
  isDisconnecting (state (refresh config on_public
                            (set_isConnecting true initialState))) = false.
Proof.
  split; [reflexivity|].
  pose proof (refresh_success_frame config on_public
                (set_isConnecting true initialState) eq_refl) as H.
  split; [exact (proj1 H) | exact (proj1 (proj2 H))].
Defined.

Lemma connect_failure_frame_witness :
  (* a reported failure with a reason *)
  (connectWallet rejecting =
     (Returned (ConnectResult.make false None (Some "User rejected")), rejecting) /\
   state (connect config rejecting connected_snapshot) =
     set_error (Some "User rejected") connected_snapshot) /\
  (* a reported failure without a reason *)
  state (connect (service := Scripted.service) config
           (Scripted.connecting (Returned (ConnectResult.make false None None)))
           connected_snapshot) =
    set_error (Some "Failed to connect wallet") connected_snapshot /\
  (* a reported success with an empty address and an empty reason *)
  state (connect (service := Scripted.service) config
           (Scripted.connecting
              (Returned (ConnectResult.make true (Some "") (Some ""))))
           connected_snapshot) =
    set_error (Some "Failed to connect wallet") connected_snapshot /\
  (* a thrown error *)
  (connectWallet unreachable =
     (Threw (JsError "Wallet unreachable"), unreachable) /\
   state (connect config unreachable connected_snapshot) =
     set_error (Some "Wallet unreachable") connected_snapshot) /\
  (* a thrown value that is not an error *)
  state (connect (service := Scripted.service) config
           (Scripted.connecting (Threw JsOther)) connected_snapshot) =
    set_error (Some "Failed to connect wallet") connected_snapshot.
Proof.
  split; [split; [reflexivity|] | split; [| split; [| split; [split; [reflexivity|] |]]]].
  - refine (connect_failure_frame config rejecting rejecting connected_snapshot
              (Returned (ConnectResult.make false None (Some "User rejected")))
              "User rejected" eq_refl _).
    left. exists (ConnectResult.make false None (Some "User rejected")).
    split; [reflexivity|]. split; [left; reflexivity|].
    left. split; [reflexivity | discriminate].
  - refine (connect_failure_frame (service := Scripted.service) config
              (Scripted.connecting (Returned (ConnectResult.make false None None)))
              _ connected_snapshot _ "Failed to connect wallet" eq_refl _).
    left. exists (ConnectResult.make false None None).
    split; [reflexivity|]. split; [left; reflexivity|].
    right. split; [left; reflexivity | reflexivity].
  - refine (connect_failure_frame (service := Scripted.service) config
              (Scripted.connecting
                 (Returned (ConnectResult.make true (Some "") (Some ""))))
              _ connected_snapshot _ "Failed to connect wallet" eq_refl _).
    left. exists (ConnectResult.make true (Some "") (Some "")).
    split; [reflexivity|]. split; [right; split; [reflexivity | right; reflexivity]|].
    right. split; [right; reflexivity | reflexivity].
  - refine (connect_failure_frame config unreachable unreachable
              connected_snapshot (Threw (JsError "Wallet unreachable"))
              "Wallet unreachable" eq_refl _).
    right. left. reflexivity.
  - refine (connect_failure_frame (service := Scripted.service) config
              (Scripted.connecting (Threw JsOther)) _ connected_snapshot _
              "Failed to connect wallet" eq_refl _).
    right. right. split; reflexivity.
Defined.

Lemma disconnect_success_resets_witness :
  disconnectWallet on_public =
    (Returned tt,
     mkWallet true true false "G123" public_passphrase true) /\
  state (disconnect on_public wrong_network_snapshot) =
    set_isWalletAvailable true initialState.
Proof.
  split; [reflexivity|].
  exact (disconnect_success_resets on_public
           (mkWallet true true false "G123" public_passphrase true)
           wrong_network_snapshot eq_refl).
Defined.

Lemma signTx_preconditions_witness :
  (isConnected initialState = false /\
   result (signTx config "tx" fresh initialState)
     = Threw (JsError "Wallet not connected") /\
   gateway_calls (trace (signTx config "tx" fresh initialState)) = []) /\
  (isConnected wrong_network_snapshot = true /\
   isWrongNetwork wrong_network_snapshot = true /\
   result (signTx config "tx" on_public wrong_network_snapshot)
     = Threw (JsError "Wrong network. Please switch to testnet") /\
   gateway_calls (trace (signTx config "tx" on_public wrong_network_snapshot))
     = []).
Proof.
  split.
  - split; [reflexivity|].
    pose proof (proj1 (signTx_preconditions config "tx" fresh initialState)
                  eq_refl) as H.
    split; [exact (proj1 H) | exact (proj1 (proj2 H))].
  - split; [reflexivity|]. split; [reflexivity|].
    pose proof (proj2 (signTx_preconditions config "tx" on_public
                         wrong_network_snapshot) eq_refl eq_refl) as H.
    split; [exact (proj1 H) | exact (proj1 (proj2 H))].
Defined.

End OnTheSimulatedWallet.


(** * Further properties of the hook *)

Section MoreProperties.
Context {World Tx Signed : Type}.
Context (STELLAR_CONFIG : StellarConfig.t).
Context {service : WalletService World Tx Signed}.

Local Abbreviation passphrase :=
  (StellarConfig.networkPassphrase STELLAR_CONFIG).

(** ** Failures are swallowed, except by [signTx] *)


(** X2: [signTx] resolves to a value exactly when the snapshot is connected,
    is not on the wrong network, and the wallet's signing call returned that
    value; in every other case it rejects. *)
Theorem signTx_resolves_iff
        (transaction : Tx) (w : World) (s : WalletState) (signed : Signed) :
  result (signTx STELLAR_CONFIG transaction w s) = Returned signed <->
  (isConnected s = true /\ isWrongNetwork s = false /\
   fst (signTransaction transaction w) = Returned signed).
Proof.
  unfold signTx. unfold_async. cbn [result world state trace].
  destruct (isConnected s); cbn [negb result].
  2: { split; [discriminate | intros [[=] _]]. }
  destruct (isWrongNetwork s); cbn [result].
  1: { split; [discriminate | intros [_ [[=] _]]]. }
  destruct (signTransaction transaction w) as [[v|e] w1]; cbn [fst snd result].
  - split; [intros [= ->]; auto | intros (_ & _ & H); exact H].
  - split; [discriminate | intros (_ & _ & [=])].
Qed.

(** X3: whatever is in the snapshot, [signTx] changes at most its [error]
    field, and the only wallet-service function it may call is
    [signTransaction], at most once and with the transaction it was given. *)
Theorem signTx_frame (transaction : Tx) (w : World) (s : WalletState) :
  let r := signTx STELLAR_CONFIG transaction w s in
  state r = set_error (error (state r)) s /\
  (gateway_calls (trace r) = [] \/
   gateway_calls (trace r) = [CallSignTransaction transaction]).
Proof.
  unfold signTx. unfold_async. cbn [result world state trace].
  destruct s as [a c cg dg e av n wn]. cbn [isConnected isWrongNetwork].
  destruct c; cbn [negb result state trace]; [|auto].
  destruct wn; cbn [result state trace]; [auto|].
  destruct (signTransaction transaction w) as [[v|x] w1];
    cbn [fst snd result state trace]; auto.
Qed.

(** ** What [refresh] asks the wallet *)

(** [refresh] calls query functions only. *)
Lemma refresh_only_queries_aux (w : World) (s : WalletState) :
  Forall (fun c => is_read c = true)
         (gateway_calls (trace (refresh STELLAR_CONFIG w s))).
Proof.
  rewrite (refresh_run STELLAR_CONFIG).
  destruct (isWalletInstalled w) as [[v|x] w0];
    [destruct (isWalletConnected w0) as [[[|]|x] w1];
     [destruct (getAccountAddress w1) as [[v1|x] w2];
      [destruct (getNetwork w2) as [[v2|x] w3] | ] | | ] | ];
    cbn [trace gateway_calls]; repeat constructor.
Qed.

(** X4: [refresh] calls only the four query functions of the wallet service,
    each at most once, and asks for the address or the network only when the
    wallet has answered that it is connected. *)
Theorem refresh_only_queries (w : World) (s : WalletState) :
  let calls := gateway_calls (trace (refresh STELLAR_CONFIG w s)) in
  Forall (fun c => is_read c = true) calls /\
  NoDup calls /\
  (In CallGetAccountAddress calls \/ In CallGetNetwork calls ->
   fst (isWalletConnected (snd (isWalletInstalled w))) = Returned true).
Proof.
  intros calls. subst calls. rewrite (refresh_run STELLAR_CONFIG).
  destruct (isWalletInstalled w) as [[v|x] w0]; cbn [fst snd];
    [destruct (isWalletConnected w0) as [[[|]|x] w1]; cbn [fst snd];
     [destruct (getAccountAddress w1) as [[v1|x] w2];
      [destruct (getNetwork w2) as [[v2|x] w3] | ] | | ] | ];
    cbn [trace gateway_calls];
    (split; [repeat constructor | split]);
    try (repeat (constructor; [cbn; intuition discriminate|]); constructor);
    cbn; intuition discriminate.
Qed.

(** X5: when the wallet answers that it is not connected, [refresh] asks
    nothing more and commits a snapshot without address and network, not on
    the wrong network, without error, that records whether the wallet is
    installed and keeps the two transient flags. *)
Theorem refresh_not_connected
        (w w1 w2 : World) (s : WalletState) (available : bool) :
  isWalletInstalled w = (Returned available, w1) ->
  isWalletConnected w1 = (Returned false, w2) ->
  let r := refresh STELLAR_CONFIG w s in
  state r = {| address := None;
               isConnected := false;
               isConnecting := isConnecting s;
               isDisconnecting := isDisconnecting s;
               error := None;
               isWalletAvailable := available;
               network := None;
               isWrongNetwork := false |} /\
  gateway_calls (trace r) = [CallIsWalletInstalled; CallIsWalletConnected].
Proof.
  intros Hi Hc r. subst r. rewrite (refresh_run STELLAR_CONFIG), Hi, Hc.
  split; reflexivity.
Qed.

(** ** [disconnect] and [switchNetwork] when the wallet refuses *)


(** X7: [disconnect] raises [isDisconnecting] (and clears [error]) before it
    calls the wallet, calls [disconnectWallet] exactly once and nothing else,
    and commits exactly one more state after the call, in which
    [isDisconnecting] is lowered again. *)
Theorem disconnect_trace (w : World) (s : WalletState) :
  let r := disconnect w s in
  trace r = [EvSet (set_error None (set_isDisconnecting true s));
             EvCall CallDisconnectWallet;
             EvSet (state r)] /\
  isDisconnecting (state r) = false.
Proof.
  unfold disconnect. unfold_async. cbn [result world state trace].
  destruct (disconnectWallet w) as [[u|e] w1]; cbn; auto.
Qed.


(** X9: when the wallet accepts the switch, [switchNetwork] does not assume
    the new network: it ends with the snapshot, and has made the queries,
    of a [refresh] run on the wallet as the switch left it. *)
Theorem switchNetwork_success_refreshes
        (w w1 : World) (s : WalletState) :
  setNetwork passphrase w = (Returned tt, w1) ->
  let r := switchNetwork STELLAR_CONFIG w s in
  state r = state (refresh STELLAR_CONFIG w1 s) /\
  world r = world (refresh STELLAR_CONFIG w1 s) /\
  gateway_calls (trace r) =
    CallSetNetwork passphrase
      :: gateway_calls (trace (refresh STELLAR_CONFIG w1 s)).
Proof.
  intros Hs. unfold switchNetwork. unfold_async.
  cbn [result world state trace]. rewrite Hs. cbn [fst snd result world state trace].
  rewrite refresh_returns. cbn. auto.
Qed.

(** ** What [connect] does first *)

(** X10: [connect] first commits the snapshot with [isConnecting] raised and
    [error] cleared, then calls [connectWallet], whatever the snapshot was
    (also when it is already connected); [connectWallet] is called once, and
    every later call is a query. *)
Theorem connect_trace (w : World) (s : WalletState) :
  let r := connect STELLAR_CONFIG w s in
  (exists rest,
      trace r = EvSet (set_error None (set_isConnecting true s))
                  :: EvCall CallConnectWallet :: rest) /\
  (exists queries,
      gateway_calls (trace r) = CallConnectWallet :: queries /\
      Forall (fun c => is_read c = true) queries).
Proof.
  pose proof (refresh_only_queries_aux (snd (connectWallet w))
                (set_error None (set_isConnecting true s))) as Q.
  unfold connect, connect_try. unfold_async. cbn [result world state trace].
  destruct (connectWallet w) as [[res|e] w1]; cbn [fst snd result world state trace] in *.
  - destruct (ConnectResult.success res && truthy (ConnectResult.address res));
      cbn [result world state trace].
    + rewrite refresh_returns. cbn [result world state trace app gateway_calls].
      split; [eexists; reflexivity|]. eexists. split; [reflexivity|]. exact Q.
    + cbn. split; [eexists; reflexivity|].
      exists []. split; [reflexivity | constructor].
  - cbn. split; [eexists; reflexivity|].
    exists []. split; [reflexivity | constructor].
Qed.

(** X22: [connect] does not take the wallet's word for the connection. When
    [connectWallet] reports success with an address but the wallet then
    answers that it is not connected, the snapshot ends not connected, with
    no address and no network, and records whether the wallet is
    installed. *)
Theorem connect_trusts_refresh_only
        (w w1 w2 w3 : World) (s : WalletState) (res : ConnectResult.t)
        (available : bool) :
  connectWallet w = (Returned res, w1) ->
  ConnectResult.success res = true ->
  truthy (ConnectResult.address res) = true ->
  isWalletInstalled w1 = (Returned available, w2) ->
  isWalletConnected w2 = (Returned false, w3) ->
  let s' := state (connect STELLAR_CONFIG w s) in
  isConnected s' = false /\ address s' = None /\ network s' = None /\
  isWrongNetwork s' = false /\ isWalletAvailable s' = available /\
  error s' = None.
Proof.
  intros Hc Hs Ha Hi Hq s'. subst s'.
  rewrite (proj1 (connect_success_state STELLAR_CONFIG w w1 s res Hc Hs Ha)).
  rewrite (refresh_run STELLAR_CONFIG), Hi, Hq.
  repeat split.
Qed.

(** ** [refresh] writes what the wallet says *)

(** What [refresh] does to a snapshot is fixed by the wallet alone: either
    it overwrites the six fields with values read from the wallet, or it
    records one failure message; the wallet it leaves is the same too. *)
Lemma refresh_uniform (w : World) :
  exists w' : World,
    (exists available connected address network,
        forall s, world (refresh STELLAR_CONFIG w s) = w' /\
                  state (refresh STELLAR_CONFIG w s) =
                    refreshed STELLAR_CONFIG available connected address network s)
    \/
    (exists e,
        forall s, world (refresh STELLAR_CONFIG w s) = w' /\
                  state (refresh STELLAR_CONFIG w s) =
                    set_error (Some (message_or e "Unknown error")) s).
Proof.
  destruct (isWalletInstalled w) as [[v|x] w0] eqn:E0.
  2: { exists w0. right. exists x. intros s.
       rewrite (refresh_run STELLAR_CONFIG), E0. split; reflexivity. }
  destruct (isWalletConnected w0) as [[[|]|x] w1] eqn:E1.
  3: { exists w1. right. exists x. intros s.
       rewrite (refresh_run STELLAR_CONFIG), E0, E1. split; reflexivity. }
  2: { exists w1. left. exists v, false, None, None. intros s.
       rewrite (refresh_run STELLAR_CONFIG), E0, E1. split; reflexivity. }
  destruct (getAccountAddress w1) as [[v1|x] w2] eqn:E2.
  2: { exists w2. right. exists x. intros s.
       rewrite (refresh_run STELLAR_CONFIG), E0, E1, E2. split; reflexivity. }
  destruct (getNetwork w2) as [[v2|x] w3] eqn:E3.
  - exists w3. left. exists v, true, v1, v2. intros s.
    rewrite (refresh_run STELLAR_CONFIG), E0, E1, E2, E3. split; reflexivity.
  - exists w3. right. exists x. intros s.
    rewrite (refresh_run STELLAR_CONFIG), E0, E1, E2, E3. split; reflexivity.
Qed.

(** Queries that leave the wallet alone make [refresh] leave it alone. *)
Lemma refresh_world (w : World) (s : WalletState) :
  queries_leave_wallet service ->
  world (refresh STELLAR_CONFIG w s) = w.
Proof.
  intros P. rewrite (refresh_run STELLAR_CONFIG).
  pose proof (P w) as (P1 & P2 & P3 & P4).
  destruct (isWalletInstalled w) as [[v|x] w0]; cbn [fst snd] in *; subst w0;
    [|reflexivity].
  destruct (isWalletConnected w) as [[[|]|x] w1]; cbn [fst snd] in *; subst w1;
    try reflexivity.
  destruct (getAccountAddress w) as [[v1|x] w2]; cbn [fst snd] in *; subst w2;
    [|reflexivity].
  destruct (getNetwork w) as [[v2|x] w3]; cbn [fst snd] in *; subst w3;
    reflexivity.
Qed.

Lemma refresh_twice (w : World) (s : WalletState) :
  queries_leave_wallet service ->
  state (refresh STELLAR_CONFIG (world (refresh STELLAR_CONFIG w s))
           (state (refresh STELLAR_CONFIG w s)))
  = state (refresh STELLAR_CONFIG w s).
Proof.
  intros P. rewrite refresh_world by exact P.
  destruct (refresh_uniform w) as [w' [(a & c & ad & n & H) | (e & H)]].
  - rewrite (proj2 (H (state (refresh STELLAR_CONFIG w s)))).
    rewrite (proj2 (H s)). reflexivity.
  - rewrite (proj2 (H (state (refresh STELLAR_CONFIG w s)))).
    rewrite (proj2 (H s)). reflexivity.
Qed.

(** X11: the connection a [refresh] reports comes from the wallet alone. Run
    on the same wallet from two different snapshots, it yields the same
    [isWalletAvailable], [isConnected], [address], [network] and
    [isWrongNetwork] whenever its queries succeed, and in every case the same
    [error] and the same wallet. *)
Theorem refresh_reads_ground_truth (w : World) (s1 s2 : WalletState) :
  let r1 := refresh STELLAR_CONFIG w s1 in
  let r2 := refresh STELLAR_CONFIG w s2 in
  world r1 = world r2 /\
  error (state r1) = error (state r2) /\
  (error (state r1) = None ->
   isWalletAvailable (state r1) = isWalletAvailable (state r2) /\
   isConnected (state r1) = isConnected (state r2) /\
   address (state r1) = address (state r2) /\
   network (state r1) = network (state r2) /\
   isWrongNetwork (state r1) = isWrongNetwork (state r2)).
Proof.
  cbv zeta.
  destruct (refresh_uniform w) as [w' [(a & c & ad & n & H) | (e & H)]];
    destruct (H s1) as [W1 S1]; destruct (H s2) as [W2 S2];
    rewrite W1, W2, S1, S2; cbn.
  - repeat split.
  - split; [reflexivity|]. split; [reflexivity|]. discriminate.
Qed.

(** X12: [refresh] is idempotent on a wallet whose queries do not change it:
    a second [refresh] right after the first leaves the snapshot and the
    wallet as the first left them. *)
Theorem refresh_idempotent (w : World) (s : WalletState) :
  queries_leave_wallet service ->
  let r := refresh STELLAR_CONFIG w s in
  world r = w /\
  state (refresh STELLAR_CONFIG (world r) (state r)) = state r.
Proof.
  intros P. split; [apply refresh_world; exact P | apply refresh_twice; exact P].
Qed.

(** X13: the reconciliation timer is quiet on a wallet that does not change:
    after the [refresh] on mount, any number of ticks leaves the snapshot as
    the mount left it. *)
Theorem polling_is_stable (ticks : nat) (w : World) :
  queries_leave_wallet service ->
  snapshot_after STELLAR_CONFIG (useEffect_ops ticks) w =
  snapshot_after STELLAR_CONFIG (useEffect_ops 0) w.
Proof.
  intros P. unfold snapshot_after, useEffect_ops.
  cbn [run_ops run_op repeat].
  pose proof (refresh_world w initialState P) as W.
  pose proof (refresh_twice w initialState P) as T. rewrite W in T.
  rewrite W. set (s1 := state (refresh STELLAR_CONFIG w initialState)) in *.
  clearbody s1. clear W.
  induction ticks as [|n IH]; [reflexivity|].
  cbn [repeat run_ops run_op].
  rewrite (refresh_world w s1 P), T. exact IH.
Qed.

(** ** More that holds after every sequence of operations *)

Lemma refresh_blank (w : World) (s : WalletState) :
  blank_when_disconnected s ->
  blank_when_disconnected (state (refresh STELLAR_CONFIG w s)).
Proof.
  intros B. rewrite (refresh_run STELLAR_CONFIG).
  destruct (isWalletInstalled w) as [[v|x] w0];
    [destruct (isWalletConnected w0) as [[[|]|x] w1];
     [destruct (getAccountAddress w1) as [[v1|x] w2];
      [destruct (getNetwork w2) as [[v2|x] w3] | ] | | ] | ];
    cbn [state]; try exact B.
  - intros [=].
  - intros _. repeat split.
Qed.

Lemma run_op_blank (op : Op Tx) (w : World) (s : WalletState) :
  blank_when_disconnected s ->
  blank_when_disconnected (snd (run_op STELLAR_CONFIG op w s)).
Proof.
  intros B. destruct op; cbn [run_op snd].
  - apply refresh_blank; exact B.
  - unfold connect, connect_try. unfold_async. cbn [result world state trace].
    destruct (connectWallet w) as [[res|e] w1]; cbn [fst snd result world state];
      [|exact B].
    destruct (ConnectResult.success res && truthy (ConnectResult.address res));
      cbn [result world state]; [|exact B].
    rewrite refresh_returns. cbn [result state]. apply refresh_blank. exact B.
  - unfold disconnect. unfold_async. cbn [result world state trace].
    destruct (disconnectWallet w) as [[u|e] w1]; cbn [fst snd result world state];
      [|exact B].
    intros _. repeat split.
  - rewrite switchNetwork_state.
    destruct (fst (setNetwork passphrase w)); [apply refresh_blank|]; exact B.
  - unfold signTx. unfold_async. cbn [result world state trace].
    destruct (isConnected s) eqn:C; cbn [negb result state]; [|exact B].
    destruct (isWrongNetwork s) eqn:Wn; cbn [result state]; [exact B|].
    destruct (signTransaction transaction w) as [[v|e] w1];
      cbn [fst snd result state]; [exact B|].
    unfold blank_when_disconnected. cbn. rewrite C. discriminate.
Qed.

Lemma run_ops_blank (ops : list (Op Tx)) :
  forall (w : World) (s : WalletState),
    blank_when_disconnected s ->
    blank_when_disconnected (snd (run_ops STELLAR_CONFIG ops w s)).
Proof.
  induction ops as [|op ops IH]; intros w s B; cbn [run_ops]; [exact B|].
  pose proof (run_op_blank op w s B) as B'.
  destruct (run_op STELLAR_CONFIG op w s) as [w' s']. apply IH. exact B'.
Qed.

(** X14: after every sequence of operations on a freshly mounted hook, a
    snapshot that is not connected holds no address and no network and is
    not on the wrong network: the three are only ever present together with
    [isConnected]. *)
Theorem disconnected_snapshot_is_blank (ops : list (Op Tx)) (w : World) :
  let s := snapshot_after STELLAR_CONFIG ops w in
  isConnected s = false ->
  address s = None /\ network s = None /\ isWrongNetwork s = false.
Proof.
  apply (run_ops_blank ops w initialState). intros _. repeat split.
Qed.

(** The states [refresh] commits: the one it ends in. *)
Lemma refresh_commits (w : World) (s : WalletState) :
  committed (trace (refresh STELLAR_CONFIG w s)) =
  [state (refresh STELLAR_CONFIG w s)].
Proof.
  pose proof (refresh_state STELLAR_CONFIG w s) as H; cbv zeta in H.
  destruct (result (refresh_try STELLAR_CONFIG w s)); exact (proj2 H).
Qed.

Lemma commits_of_derived (op : Op Tx) (w : World) (s : WalletState) :
  wrong_network_derived STELLAR_CONFIG s ->
  Forall (wrong_network_derived STELLAR_CONFIG) (commits_of STELLAR_CONFIG op w s).
Proof.
  intros D. destruct op; cbn [commits_of].
  - rewrite refresh_commits. repeat constructor. apply refresh_derived. exact D.
  - unfold connect, connect_try. unfold_async. cbn [result world state trace].
    destruct (connectWallet w) as [[res|e] w1];
      cbn [fst snd result world state trace app committed].
    + destruct (ConnectResult.success res && truthy (ConnectResult.address res));
        cbn [result world state trace app committed].
      * rewrite refresh_returns. cbn [result world state trace app committed].
        rewrite refresh_commits. repeat constructor; try exact D.
        apply refresh_derived. exact D.
      * repeat constructor; exact D.
    + repeat constructor; exact D.
  - unfold disconnect. unfold_async. cbn [result world state trace].
    destruct (disconnectWallet w) as [[u|e] w1];
      cbn [fst snd result world state trace app committed];
      repeat constructor; exact D.
  - unfold switchNetwork. unfold_async. cbn [result world state trace].
    destruct (setNetwork passphrase w) as [[u|e] w1];
      cbn [fst snd result world state trace app committed].
    + rewrite refresh_returns. cbn [result world state trace app committed].
      rewrite refresh_commits. repeat constructor. apply refresh_derived. exact D.
    + repeat constructor; exact D.
  - unfold signTx. unfold_async. cbn [result world state trace].
    destruct (isConnected s); cbn [negb result state trace committed];
      [|constructor].
    destruct (isWrongNetwork s); cbn [result state trace committed];
      [constructor|].
    destruct (signTransaction transaction w) as [[v|e] w1];
      cbn [fst snd result state trace app committed];
      repeat constructor; exact D.
Qed.

(** X15: [isWrongNetwork] is right in every state the UI gets to render, not
    only between operations: after any sequence of operations, each state
    the next operation commits while it runs has [isWrongNetwork] true
    exactly when it is connected to a known network other than the
    configured one. *)
Theorem rendered_states_consistent
        (ops : list (Op Tx)) (op : Op Tx) (w : World) :
  Forall (wrong_network_consistent STELLAR_CONFIG)
         (commits_of STELLAR_CONFIG op
            (fst (run_ops STELLAR_CONFIG ops w initialState))
            (snd (run_ops STELLAR_CONFIG ops w initialState))).
Proof.
  eapply Forall_impl; [intros a; apply derived_consistent|].
  apply commits_of_derived.
  exact (proj1 (run_ops_settled STELLAR_CONFIG ops w initialState
                  (initialState_settled STELLAR_CONFIG))).
Qed.

End MoreProperties.


(** * Properties of the raffle button *)

Section ButtonProperties.
Context {World Tx Signed Number : Type}.
Context (STELLAR_CONFIG : StellarConfig.t).
Context {service : WalletService World Tx Signed}.
Context (toUpperCase : string -> string).

Local Abbreviation passphrase :=
  (StellarConfig.networkPassphrase STELLAR_CONFIG).

(** X16: what the button says is what a click does. When it is not loading:
    a click that runs [connect] happens on a button reading "Connect Wallet",
    a click that runs [switchNetwork] on a button reading "Switch to" and the
    target network, both carrying the call-to-action class; a click that
    starts the raffle entry happens on a connected snapshot that is not on
    the wrong network, on a button showing its children without that
    class. *)
Theorem button_announces_click
        (p : EnterRaffleButtonProps Number) (w : World) (s : WalletState) :
  let view := render STELLAR_CONFIG toUpperCase p false s in
  let base := match className p with
              | Some c => c
              | None => default_className
              end in
  disabled view = false /\
  match handleButtonClick STELLAR_CONFIG p w s with
  | WalletOperation r =>
      rendered_className view = base ++ "  " ++ call_to_action /\
      ((isConnected s = false /\
        r = connect STELLAR_CONFIG w s /\
        rendered_children view = Text "Connect Wallet") \/
       (isConnected s = true /\ isWrongNetwork s = true /\
        r = switchNetwork STELLAR_CONFIG w s /\
        rendered_children view =
          Text ("Switch to " ++ targetNetwork STELLAR_CONFIG toUpperCase)))
  | RaffleEntry e =>
      rendered_className view = base ++ "  " /\
      isConnected s = true /\ isWrongNetwork s = false /\
      e = handleEnterRaffle p /\
      rendered_children view = match children p with
                               | Some node => node
                               | None => default_children
                               end
  end.
Proof.
  unfold handleButtonClick, render, getButtonText. cbn [disabled].
  split; [reflexivity|].
  destruct (isConnected s); cbn [negb orb andb rendered_className rendered_children].
  - destruct (isWrongNetwork s); cbn [negb orb andb]; repeat split. right. repeat split.
  - split; [reflexivity|]. left. repeat split.
Qed.

(** X17: [handleEnterRaffle] raises [isLoading] first and lowers it last,
    whatever the callbacks do (also when [onError] itself throws), waits 900
    ms and logs the entry in between, and touches [isLoading] at no other
    point. *)
Theorem handleEnterRaffle_brackets_loading (p : EnterRaffleButtonProps Number) :
  let e := handleEnterRaffle p in
  entry_isLoading e = false /\
  exists rest,
    entry_log e =
      ([SetIsLoading true; Timeout 900; ConsoleLog (raffleId p) (ticketPrice p)]
       ++ rest ++ [SetIsLoading false])%list /\
    forall v, ~ In (SetIsLoading v) rest.
Proof.
  unfold handleEnterRaffle. cbn [entry_isLoading entry_log]. split; [reflexivity|].
  destruct (onSuccess p) as [[u|err]|]; cbn [fst snd app].
  - exists [CalledOnSuccess]. split; [reflexivity|].
    intros v [H|[]]; discriminate H.
  - destruct (onError p) as [f|]; cbn [fst snd app].
    + exists [CalledOnSuccess; ConsoleError err;
              CalledOnError (message_or err "Failed to buy ticket")].
      split; [reflexivity|].
      intros v [H|[H|[H|[]]]]; discriminate H.
    + exists [CalledOnSuccess; ConsoleError err]. split; [reflexivity|].
      intros v [H|[H|[]]]; discriminate H.
  - exists []. split; [reflexivity|]. intros v [].
Qed.


(** X19: [handleEnterRaffle] rejects only when [onSuccess] threw and the
    [onError] called for it threw in turn, and then with what [onError]
    threw; a throwing [onSuccess] alone is caught. *)
Theorem handleEnterRaffle_rejects_iff
        (p : EnterRaffleButtonProps Number) (x : thrown) :
  entry_result (handleEnterRaffle p) = Threw x <->
  exists err callback,
    onSuccess p = Some (Threw err) /\ onError p = Some callback /\
    callback (message_or err "Failed to buy ticket") = Threw x.
Proof.
  unfold handleEnterRaffle. cbn [entry_result].
  destruct (onSuccess p) as [[u|err]|]; cbn [fst snd].
  - split; [discriminate | intros (e' & f & [=] & _)].
  - destruct (onError p) as [f|]; cbn [fst snd].
    + split.
      * intros H. exists err, f. auto.
      * intros (e' & f' & [= <-] & [= <-] & H). exact H.
    + split; [discriminate | intros (e' & f & _ & [=] & _)].
  - split; [discriminate | intros (e' & f & [=] & _)].
Qed.

(** The calls [connect] makes: [connectWallet], then queries. *)
Lemma connect_calls (w : World) (s : WalletState) :
  exists queries,
    gateway_calls (trace (connect STELLAR_CONFIG w s))
      = CallConnectWallet :: queries /\
    Forall (fun c => is_read c = true) queries.
Proof.
  pose proof (refresh_only_queries_aux STELLAR_CONFIG (snd (connectWallet w))
                (set_error None (set_isConnecting true s))) as Q.
  unfold connect, connect_try. unfold_async. cbn [result world state trace].
  destruct (connectWallet w) as [[res|e] w1]; cbn [fst snd result world state trace] in *.
  - destruct (ConnectResult.success res && truthy (ConnectResult.address res));
      cbn [result world state trace].
    + rewrite refresh_returns. cbn [result world state trace app gateway_calls].
      eexists. split; [reflexivity | exact Q].
    + cbn. exists []. split; [reflexivity | constructor].
  - cbn. exists []. split; [reflexivity | constructor].
Qed.

(** X20: a click never signs and never disconnects: the wallet operation it
    sets off calls [connectWallet] or [setNetwork] (with the configured
    passphrase) once, and after that only queries. *)
Theorem click_calls
        (p : EnterRaffleButtonProps Number) (w : World) (s : WalletState) :
  match handleButtonClick STELLAR_CONFIG p w s with
  | WalletOperation r =>
      exists first queries,
        gateway_calls (trace r) = first :: queries /\
        (first = CallConnectWallet \/ first = CallSetNetwork passphrase) /\
        Forall (fun c => is_read c = true) queries
  | RaffleEntry _ => isConnected s = true /\ isWrongNetwork s = false
  end.
Proof.
  unfold handleButtonClick.
  destruct (isConnected s); cbn [negb].
  - destruct (isWrongNetwork s); [|auto].
    unfold switchNetwork. unfold_async. cbn [result world state trace].
    pose proof (refresh_only_queries_aux STELLAR_CONFIG
                  (snd (setNetwork passphrase w)) s) as Q.
    destruct (setNetwork passphrase w) as [[u|e] w1];
      cbn [fst snd result world state trace] in *.
    + rewrite refresh_returns. cbn [result world state trace app gateway_calls].
      eexists _, _. split; [reflexivity|]. split; [auto | exact Q].
    + cbn. eexists _, []. split; [reflexivity|]. split; [auto | constructor].
  - destruct (connect_calls w s) as (q & E & F).
    exists CallConnectWallet, q. auto.
Qed.

(** X21: the raffle entry starts only on a snapshot [signTx] accepts. After
    any sequence of operations, if a click starts the entry then the
    snapshot is connected, its network is unknown or the configured one, and
    [signTx] on it goes through to the wallet: its outcome is the outcome of
    the wallet's signing call. *)
Theorem entry_only_when_signable
        (ops : list (Op Tx)) (w : World) (p : EnterRaffleButtonProps Number)
        (e : Entry Number) :
  let w' := fst (run_ops STELLAR_CONFIG ops w initialState) in
  let s' := snd (run_ops STELLAR_CONFIG ops w initialState) in
  handleButtonClick STELLAR_CONFIG p w' s' = RaffleEntry e ->
  isConnected s' = true /\
  (network s' = None \/ network s' = Some passphrase) /\
  forall transaction,
    result (signTx STELLAR_CONFIG transaction w' s') =
    fst (signTransaction transaction w').
Proof.
  cbv zeta.
  pose proof (proj1 (run_ops_settled STELLAR_CONFIG ops w initialState
                       (initialState_settled STELLAR_CONFIG))) as D.
  destruct (run_ops STELLAR_CONFIG ops w initialState) as [w' s']. cbn [fst snd] in *.
  unfold handleButtonClick, wrong_network_derived in *.
  destruct (isConnected s') eqn:C; cbn [negb]; [|discriminate].
  destruct (isWrongNetwork s') eqn:Wn; [discriminate|]. intros _.
  split; [reflexivity|]. split.
  - destruct (network s') as [n|]; [|auto]. right. cbn in D.
    destruct (String.eqb_spec n passphrase) as [E|E];
      [rewrite E; reflexivity | discriminate D].
  - intros transaction. unfold signTx. unfold_async.
    cbn [result world state trace]. rewrite C, Wn. cbn [negb].
    destruct (signTransaction transaction w') as [[v|x] w1]; reflexivity.
Qed.

End ButtonProperties.


(** * The further theorems on the simulated wallet *)

Section MoreOnTheSimulatedWallet.
Import Demo.

(** The simulated wallet's queries only read it. *)
Lemma demo_queries_leave_wallet : queries_leave_wallet Demo.service.
Proof.
  intros w. cbn. unfold answer. destruct (reachable w); repeat split.
Defined.


Lemma refresh_only_queries_witness :
  In CallGetNetwork
     (gateway_calls (trace (refresh config on_public initialState))
        : list (GatewayCall string)) /\
  fst (isWalletConnected (snd (isWalletInstalled on_public))) = Returned true.
Proof.
  split; [cbn; auto 6|].
  apply (proj2 (proj2 (refresh_only_queries config on_public initialState))).
  right. cbn. auto 6.
Defined.

Lemma refresh_not_connected_witness :
  isWalletInstalled fresh = (Returned true, fresh) /\
  isWalletConnected fresh = (Returned false, fresh) /\
  state (refresh config fresh stale_error_snapshot) =
    set_isWalletAvailable true initialState /\
  gateway_calls (trace (refresh config fresh stale_error_snapshot)) =
    [CallIsWalletInstalled; CallIsWalletConnected].
Proof.
  split; [reflexivity|]. split; [reflexivity|].
  exact (refresh_not_connected config fresh fresh fresh stale_error_snapshot
           true eq_refl eq_refl).
Defined.



Lemma switchNetwork_success_refreshes_witness :
  setNetwork (StellarConfig.networkPassphrase config) on_public =
    (Returned tt, on_required) /\
  state (switchNetwork config on_public wrong_network_snapshot) =
    state (refresh config on_required wrong_network_snapshot) /\
  isWrongNetwork (state (switchNetwork config on_public wrong_network_snapshot))
    = false.
Proof.
  split; [reflexivity|].
  split; [|reflexivity].
  exact (proj1 (switchNetwork_success_refreshes config on_public on_required
                  wrong_network_snapshot eq_refl)).
Defined.

Lemma refresh_reads_ground_truth_witness :
  error (state (refresh config on_public initialState)) = None /\
  network (state (refresh config on_public initialState)) =
  network (state (refresh config on_public connected_snapshot)).
Proof.
  split; [reflexivity|].
  pose proof (proj2 (proj2 (refresh_reads_ground_truth config on_public
                              initialState connected_snapshot)) eq_refl) as H.
  exact (proj1 (proj2 (proj2 (proj2 H)))).
Defined.

Lemma refresh_idempotent_witness :
  queries_leave_wallet Demo.service /\
  state (refresh config on_public
           (state (refresh config on_public initialState))) =
  state (refresh config on_public initialState).
Proof.
  split; [exact demo_queries_leave_wallet|].
  exact (proj2 (refresh_idempotent config on_public initialState
                  demo_queries_leave_wallet)).
Defined.

Lemma polling_is_stable_witness :
  queries_leave_wallet Demo.service /\
  snapshot_after config (useEffect_ops 3) on_public =
  snapshot_after config (useEffect_ops 0) on_public.
Proof.
  split; [exact demo_queries_leave_wallet|].
  exact (polling_is_stable config 3 on_public demo_queries_leave_wallet).
Defined.

Lemma disconnected_snapshot_is_blank_witness :
  isConnected (snapshot_after config [OpConnect; OpDisconnect] fresh) = false /\
  address (snapshot_after config [OpConnect; OpDisconnect] fresh) = None /\
  network (snapshot_after config [OpConnect; OpDisconnect] fresh) = None /\
  isWrongNetwork (snapshot_after config [OpConnect; OpDisconnect] fresh) = false.
Proof.
  split; [reflexivity|].
  exact (disconnected_snapshot_is_blank config [OpConnect; OpDisconnect] fresh
           eq_refl).
Defined.

Lemma entry_only_when_signable_witness :
  handleButtonClick config Page.plain
    (fst (run_ops config [OpConnect] fresh initialState))
    (snd (run_ops config [OpConnect] fresh initialState))
  = RaffleEntry (handleEnterRaffle Page.plain) /\
  result (signTx config "tx"
            (fst (run_ops config [OpConnect] fresh initialState))
            (snd (run_ops config [OpConnect] fresh initialState)))
  = Returned "tx:signed".
Proof.
  split; [reflexivity|].
  exact (proj2 (proj2 (entry_only_when_signable config [OpConnect] fresh
                         Page.plain (handleEnterRaffle Page.plain) eq_refl))
           "tx").
Defined.
Lemma connect_trusts_refresh_only_witness :
  connectWallet (WalletService := Forgetful.service) fresh =
    (Returned (ConnectResult.make true (Some "G123") None), fresh) /\
  isWalletConnected (WalletService := Forgetful.service) fresh =
    (Returned false, fresh) /\
  isConnected (state (connect (service := Forgetful.service) config fresh
                        initialState)) = false /\
  address (state (connect (service := Forgetful.service) config fresh
                    initialState)) = None.
Proof.
  split; [reflexivity|]. split; [reflexivity|].
  pose proof (connect_trusts_refresh_only (service := Forgetful.service)
                config fresh fresh fresh fresh initialState
                (ConnectResult.make true (Some "G123") None) true
                eq_refl eq_refl eq_refl eq_refl eq_refl) as H.
  split; [exact (proj1 H) | exact (proj1 (proj2 H))].
Defined.
End MoreOnTheSimulatedWallet.
